(** * bm25s-haystack: the document store and the retriever

    A shallow embedding of

      - [haystack_integrations/document_stores/bm25s/document_store.py]
        (class [BM25S_DocumentStore]),
      - [haystack_integrations/retrievers/bm25s/retriever.py]
        (class [BM25S_Retriever]),
      - [tests/test_document_store.py] (the fixture [docstore]).

    Both classes are adapters: every method reads an attribute, raises, or
    calls into the wrapped ranking library.  A method is therefore embedded
    as a small program over its receiver ([self]) whose only effects are
    reading and writing the receiver, raising, and calling the library; the
    library itself is a parameter of the semantics. *)

From stdpp Require Import base option list strings gmap.
From Stdlib Require Import ZArith.

Set Default Proof Using "Type".
Set Warnings "-register-all".
Open Scope string_scope.

(** ** Python values *)

(** The values that cross this code: constructor arguments, dictionary
    contents, retrieved records.  A [dict] with string keys is a [gmap]. *)
Inductive PyVal : Type :=
| PyNone
| PyBool (b : bool)
| PyInt (n : Z)
| PyStr (s : string)
| PyList (l : list PyVal)
| PyDict (d : gmap string PyVal).

(** Truth value of an object, as tested by [if]. *)
Definition truthy (v : PyVal) : bool :=
  match v with
  | PyNone => false
  | PyBool b => b
  | PyInt n => negb (n =? 0)%Z
  | PyStr s => match s with EmptyString => false | String _ _ => true end
  | PyList l => match l with [] => false | _ => true end
  | PyDict d => negb (bool_decide (d = ∅))
  end.

(** ** Exceptions *)

(** The ways the interpreter itself raises [TypeError] on the expressions
    of this code: a keyword call [cls( **kwargs)] that does not fit the
    signature, and a subscript [v[key]] on a value that has none.  (For an
    unexpected keyword the message names the first one in the dictionary's
    order, which a [gmap] does not keep; the name is left out.) *)
Inductive TypeErrorKind : Type :=
| MissingArgument (name : string)
| UnexpectedKeyword
| NotAMapping
| BadSubscript.

Inductive PyExc : Type :=
| Exception (msg : string)           (* the generic base class *)
| NotImplementedError
| TypeError (why : TypeErrorKind)
| KeyError (key : string)
| IndexError
| DeserializationError
| LibraryError (cls msg : string).   (* anything else the libraries raise *)

(** ** Objects owned by the wrapped libraries *)

(** A loaded index.  This code reads one attribute of it, the dictionary
    [scores]; the rest of the object is the library's and is only passed
    back to it. *)
Record BM25 : Type := mkBM25 {
  scores : gmap string PyVal;
  BM25_handle : positive
}.

Record Stemmer : Type := mkStemmer { Stemmer_handle : positive }.

(** What [bm25s.tokenize] returns; passed to [retrieve] as it is. *)
Definition Tokens : Type := PyVal.

(** ** Calls into the wrapped libraries *)

Inductive Ext : Type -> Type :=
| BM25_load (save_dir load_corpus mmap : PyVal) : Ext BM25
| Stemmer_Stemmer (algorithm : PyVal) : Ext Stemmer
| bm25s_tokenize (texts : PyVal) (stemmer : Stemmer) : Ext Tokens
| BM25_retrieve (self : BM25) (query_tokens : Tokens) (k : PyVal)
    (return_as : string) : Ext (list (list PyVal)).

Inductive Event : Type :=
| Called {X : Type} (e : Ext X).

(** ** Programs *)

(** A method body over a receiver of type [S]. *)
Inductive Prog (S A : Type) : Type :=
| Ret (a : A)
| Raise (e : PyExc)
| GetSelf (k : S -> Prog S A)
| SetSelf (s : S) (k : Prog S A)
| Call {X : Type} (e : Ext X) (k : X -> Prog S A).

Arguments Ret {S A} a.
Arguments Raise {S A} e.
Arguments GetSelf {S A} k.
Arguments SetSelf {S A} s k.
Arguments Call {S A X} e k.

Fixpoint bind {S A B : Type} (p : Prog S A) (f : A -> Prog S B) : Prog S B :=
  match p with
  | Ret a => f a
  | Raise e => Raise e
  | GetSelf k => GetSelf (fun s => bind (k s) f)
  | SetSelf s k => SetSelf s (bind k f)
  | Call e k => Call e (fun x => bind (k x) f)
  end.

#[global] Instance Prog_ret {S} : MRet (Prog S) := fun _ a => Ret a.
#[global] Instance Prog_bind {S} : MBind (Prog S) := fun _ _ f p => bind p f.

Definition self {S} : Prog S S := GetSelf Ret.
Definition call {S X} (e : Ext X) : Prog S X := Call e Ret.
Definition raise {S A} (e : PyExc) : Prog S A := Raise e.

(** A list comprehension whose element expression may raise. *)
Fixpoint comprehension {S A B} (f : A -> Prog S B) (l : list A) : Prog S (list B) :=
  match l with
  | [] => mret []
  | x :: l' => y ← f x; ys ← comprehension f l'; mret (y :: ys)
  end.

(** ** Semantics *)

(** What running a method leaves behind. *)
Record Ran (S A : Type) (World : Type) : Type := mkRan {
  outcome : PyExc + A;
  self_after : S;
  world_after : World;
  calls : list Event
}.

Arguments mkRan {S A World} _ _ _ _.
Arguments outcome {S A World} _.
Arguments self_after {S A World} _.
Arguments world_after {S A World} _.
Arguments calls {S A World} _.

(** The wrapped libraries: each call returns or raises, and may change
    the world (the files on disk, the library's caches). *)
Definition Library (World : Type) : Type :=
  forall X : Type, Ext X -> World -> (PyExc + X) * World.

Fixpoint interp {World S A} (lib : Library World) (p : Prog S A) (s : S) (w : World)
  : Ran S A World :=
  match p with
  | Ret a => mkRan (inr a) s w []
  | Raise e => mkRan (inl e) s w []
  | GetSelf k => interp lib (k s) s w
  | SetSelf s' k => interp lib k s' w
  | Call e k =>
      match lib _ e w with
      | (inl exc, w') => mkRan (inl exc) s w' [Called e]
      | (inr x, w') =>
          let r := interp lib (k x) s w' in
          mkRan (outcome r) (self_after r) (world_after r) (Called e :: calls r)
      end
  end.

(** A program that only computes [o]: no call, no assignment to [self]. *)
Definition computes {World S A} (lib : Library World) (p : Prog S A)
    (o : PyExc + A) : Prop :=
  forall (s : S) (w : World), interp lib p s w = mkRan o s w [].

(** ** Expressions of the language that may raise *)

(** [d[key]] on a dictionary. *)
Definition getitem {S} (d : gmap string PyVal) (key : string) : Prog S PyVal :=
  match d !! key with
  | Some v => mret v
  | None => raise (KeyError key)
  end.

(** [v[key]] with a string key, on any value.  (Only a dictionary has
    such a subscript.  The class of the exception on the other values is
    the one of the built-in types; on the integers of the array library,
    which [PyInt] also stands for, the class is [IndexError].) *)
Definition subscript {S} (v : PyVal) (key : string) : Prog S PyVal :=
  match v with
  | PyDict d => getitem d key
  | _ => raise (TypeError BadSubscript)
  end.

(** [rows[0]] on the two-dimensional array of retrieved records. *)
Definition first_row {S} (rows : list (list PyVal)) : Prog S (list PyVal) :=
  match rows with
  | row :: _ => mret row
  | [] => raise IndexError
  end.

(** ** The framework (haystack) *)

Module Document.
(** The framework's [Document], as the keyword arguments it is built
    from: [None] is an argument left out, for which the framework takes
    its default (a generated id, no content). *)
Record t : Type := mk {
  id : option PyVal;
  content : option PyVal
}.
End Document.

(** The [id] attribute of a constructed [Document].  The framework's
    [__post_init__] does [self.id = self.id or self._create_id()]: an id
    that was left out, or one that is false as a truth value, is replaced
    by an id that the framework creates from the content. *)
Inductive DocumentId : Type :=
| KeptId (v : PyVal)
| CreatedId (content : option PyVal).

Definition Document_id (d : Document.t) : DocumentId :=
  match Document.id d with
  | Some v => if truthy v then KeptId v else CreatedId (Document.content d)
  | None => CreatedId (Document.content d)
  end.

Inductive DuplicatePolicy : Type := NONE | SKIP | OVERWRITE | FAIL.

Module haystack.
(** The two helpers of the framework that the store calls; they are the
    framework's code, not this repository's, and are written here as the
    framework documents them.

    [default_to_dict(obj, init_parameters...)]: the qualified class name
    of [obj] under ["type"], the keyword arguments under
    ["init_parameters"]. *)
Definition default_to_dict (qualified_name : string)
    (init_parameters : gmap string PyVal) : gmap string PyVal :=
  {[ "type" := PyStr qualified_name;
     "init_parameters" := PyDict init_parameters ]}.

(** [default_from_dict(cls, data)]: checks ["type"] against the class
    and calls [cls( **init_parameters)]. *)
Definition default_from_dict {T} (qualified_name : string)
    (cls : gmap string PyVal -> Prog unit T)
    (data : gmap string PyVal) : Prog unit T :=
  let init_params := default (PyDict ∅) (data !! "init_parameters") in
  match data !! "type" with
  | None => raise DeserializationError
  | Some (PyStr ty) =>
      if String.eqb ty qualified_name then
        match init_params with
        | PyDict kwargs => cls kwargs
        | _ => raise (TypeError NotAMapping)
        end
      else raise DeserializationError
  | Some _ => raise DeserializationError
  end.
End haystack.

(** ** document_store.py *)

Module BM25S_DocumentStore.

Record t : Type := mk {
  corpus_dirpath : PyVal;
  load_corpus : PyVal;
  mmap : PyVal;
  stemmer_lang : PyVal;
  bm25s : BM25;
  stemmer : Stemmer
}.

Definition qualified_name : string :=
  "haystack_integrations.document_stores.bm25s.document_store.BM25S_DocumentStore".

Definition __init__ (corpus_dirpath load_corpus mmap stemmer_lang : PyVal)
  : Prog unit t :=
  bm25s ← call (BM25_load corpus_dirpath load_corpus mmap);
  stemmer ← call (Stemmer_Stemmer stemmer_lang);
  mret (mk corpus_dirpath load_corpus mmap stemmer_lang bm25s stemmer).

(** The names of the parameters of [__init__] after [self]. *)
Definition parameters : gset string :=
  {[ "corpus_dirpath"; "load_corpus"; "mmap"; "stemmer_lang" ]}.

(** [BM25S_DocumentStore( **kwargs)]: the interpreter binds the keywords
    to [(corpus_dirpath, load_corpus=True, mmap=True,
    stemmer_lang="english")], then runs [__init__]. *)
Definition new (kwargs : gmap string PyVal) : Prog unit t :=
  if bool_decide (dom kwargs ⊆ parameters) then
    match kwargs !! "corpus_dirpath" with
    | None => raise (TypeError (MissingArgument "corpus_dirpath"))
    | Some corpus_dirpath =>
        __init__ corpus_dirpath
          (default (PyBool true) (kwargs !! "load_corpus"))
          (default (PyBool true) (kwargs !! "mmap"))
          (default (PyStr "english") (kwargs !! "stemmer_lang"))
    end
  else raise (TypeError UnexpectedKeyword).

Definition count_documents : Prog t PyVal :=
  s ← self;
  getitem (scores (bm25s s)) "num_docs".

Definition filter_documents (_ : option (gmap string PyVal))
  : Prog t (list Document.t) :=
  raise NotImplementedError.

Definition write_documents (documents : list Document.t)
    (policy : DuplicatePolicy) : Prog t Z :=
  raise (Exception "bm25s is immutable").

Definition delete_documents (document_ids : list string) : Prog t unit :=
  raise (Exception "bm25s is immutable").

Definition to_dict : Prog t (gmap string PyVal) :=
  s ← self;
  let data :=
    haystack.default_to_dict qualified_name
      {[ "corpus_dirpath" := corpus_dirpath s;
         "load_corpus" := load_corpus s;
         "mmap" := mmap s;
         "stemmer_lang" := stemmer_lang s ]} in
  mret data.

Definition from_dict (data : gmap string PyVal) : Prog unit t :=
  haystack.default_from_dict qualified_name new data.

End BM25S_DocumentStore.

(** ** retriever.py *)

Module BM25S_Retriever.

(** The class is handed to the framework by [@component]; the decorator is
    the framework's and is not part of this embedding. *)
Record t : Type := mk {
  document_store : BM25S_DocumentStore.t;
  top_k : PyVal
}.

Definition top_k_default : PyVal := PyInt 10.

Definition __init__ (document_store : BM25S_DocumentStore.t) (top_k : PyVal)
  : Prog unit t :=
  mret (mk document_store top_k).

Definition run (query : PyVal) : Prog t (list Document.t) :=
  s ← self;
  query_tokens ←
    call (bm25s_tokenize query (BM25S_DocumentStore.stemmer (document_store s)));
  s ← self;
  bm25s_retrieved_docs ←
    call (BM25_retrieve (BM25S_DocumentStore.bm25s (document_store s))
            query_tokens (top_k s) "documents");
  s ← self;
  if truthy (BM25S_DocumentStore.load_corpus (document_store s)) then
    row ← first_row bm25s_retrieved_docs;
    comprehension
      (fun doc => text ← subscript doc "text";
                  mret (Document.mk None (Some text)))
      row
  else
    row ← first_row bm25s_retrieved_docs;
    comprehension (fun doc => mret (Document.mk (Some doc) None)) row.

End BM25S_Retriever.

(** ** tests/test_document_store.py *)

Module TestDocumentStore.
(** The fixture: [return BM25S_DocumentStore()]. *)
Definition docstore : Prog unit BM25S_DocumentStore.t :=
  BM25S_DocumentStore.new ∅.
End TestDocumentStore.

(** ** Using a store after construction *)

(** The public operations of a constructed store, as a caller issues
    them. *)
Inductive StoreCall : Type :=
| CountDocuments
| FilterDocuments (filters : option (gmap string PyVal))
| WriteDocuments (documents : list Document.t) (policy : DuplicatePolicy)
| DeleteDocuments (document_ids : list string)
| ToDict.

Definition perform (c : StoreCall) : Prog BM25S_DocumentStore.t unit :=
  match c with
  | CountDocuments => _ ← BM25S_DocumentStore.count_documents; mret tt
  | FilterDocuments filters => _ ← BM25S_DocumentStore.filter_documents filters; mret tt
  | WriteDocuments documents policy =>
      _ ← BM25S_DocumentStore.write_documents documents policy; mret tt
  | DeleteDocuments document_ids =>
      _ ← BM25S_DocumentStore.delete_documents document_ids; mret tt
  | ToDict => _ ← BM25S_DocumentStore.to_dict; mret tt
  end.

(** A caller that issues the operations one after the other and goes on
    after an exception. *)
Fixpoint perform_all {World} (lib : Library World) (cs : list StoreCall)
    (s : BM25S_DocumentStore.t) (w : World) : BM25S_DocumentStore.t * World :=
  match cs with
  | [] => (s, w)
  | c :: cs' =>
      let r := interp lib (perform c) s w in
      perform_all lib cs' (self_after r) (world_after r)
  end.

(** ** Retrieved records *)

(** The ['text'] field of a retrieved record, when it is a dictionary that
    has one. *)
Definition text_of (doc : PyVal) : option PyVal :=
  match doc with
  | PyDict d => d !! "text"
  | _ => None
  end.

(** ** A library to run the code against *)

Module Sample.
(** A record of a corpus. *)
Definition record (n : Z) (text : string) : PyVal :=
  PyDict {[ "id" := PyInt n; "text" := PyStr text ]}.

Definition index : BM25 :=
  mkBM25 {[ "num_docs" := PyInt 2 ]} 1.

(** A library that loads [index] and answers every retrieval with
    [rows]. *)
Definition lib (rows : list (list PyVal)) : Library unit := fun X e w =>
  match e in Ext X return (PyExc + X) * unit with
  | BM25_load _ _ _ => (inr index, w)
  | Stemmer_Stemmer _ => (inr (mkStemmer 1), w)
  | bm25s_tokenize texts _ => (inr (PyList [texts]), w)
  | BM25_retrieve _ _ _ _ => (inr rows, w)
  end.

(** With the corpus loaded retrieval yields records, without it
    positions. *)
Definition corpus_rows : list (list PyVal) :=
  [[record 1 "a cat"; record 0 "a dog"]; [record 0 "a dog"]].

Definition id_rows : list (list PyVal) := [[PyInt 1; PyInt 0]].

Definition store (load_corpus : bool) : BM25S_DocumentStore.t :=
  BM25S_DocumentStore.mk (PyStr "idx") (PyBool load_corpus) (PyBool true)
    (PyStr "english") index (mkStemmer 1).

Definition retriever (load_corpus : bool) : BM25S_Retriever.t :=
  BM25S_Retriever.mk (store load_corpus) (PyInt 2).
End Sample.

(** ** Inputs at the edges *)

Module Edge.
(** An index whose [scores] were never filled. *)
Definition index_uncounted : BM25 := mkBM25 ∅ 2.

Definition store_uncounted : BM25S_DocumentStore.t :=
  BM25S_DocumentStore.mk (PyStr "idx") (PyBool true) (PyBool true)
    (PyStr "english") index_uncounted (mkStemmer 1).

(** A row whose second record has no ['text']. *)
Definition untexted_rows : list (list PyVal) :=
  [[Sample.record 1 "a cat"; PyDict {[ "id" := PyInt 0 ]}]].
End Edge.

(** * Properties *)

(** ** The semantics of sequencing *)

Section Semantics.
Context {World : Type} (lib : Library World).

(** Running [p] and then [f]: the second part starts where the first
    ended, and the calls are those of both, in order. *)
Lemma interp_bind {S A B} (p : Prog S A) (f : A -> Prog S B) (s : S) (w : World) :
  interp lib (p ≫= f) s w =
    let r := interp lib p s w in
    match outcome r with
    | inl e => mkRan (inl e) (self_after r) (world_after r) (calls r)
    | inr a =>
        let r' := interp lib (f a) (self_after r) (world_after r) in
        mkRan (outcome r') (self_after r') (world_after r') (calls r ++ calls r')
    end.
Proof.
  unfold mbind, Prog_bind.
  revert s w; induction p as [a|e|k IH|s' k IH|X e k IH]; intros s w; simpl.
  - by destruct (interp lib (f a) s w).
  - done.
  - apply IH.
  - apply IH.
  - destruct (lib X e w) as [[exc|x] w']; simpl; [done|].
    rewrite IH. by destruct (outcome (interp lib (k x) s w')).
Qed.

Lemma interp_self {S} (s : S) (w : World) :
  interp lib self s w = mkRan (inr s) s w [].
Proof. done. Qed.

Lemma interp_ret {S A} (a : A) (s : S) (w : World) :
  interp lib (mret a) s w = mkRan (inr a) s w [].
Proof. done. Qed.

Lemma interp_raise {S A} (e : PyExc) (s : S) (w : World) :
  interp lib (raise e : Prog S A) s w = mkRan (inl e) s w [].
Proof. done. Qed.

Lemma interp_call {S X} (e : Ext X) (s : S) (w : World) :
  interp lib (call e) s w = mkRan (lib X e w).1 s (lib X e w).2 [Called e].
Proof. unfold call; simpl. by destruct (lib X e w) as [[exc|x] w']. Qed.

Lemma computes_bind {S A B} (p : Prog S A) (f : A -> Prog S B) o :
  computes lib p o ->
  forall o', match o with inl e => o' = inl e | inr a => computes lib (f a) o' end ->
  computes lib (p ≫= f) o'.
Proof.
  intros Hp o' Hf s w. rewrite interp_bind, Hp; simpl.
  destruct o as [e|a]; [by subst|]. by rewrite Hf.
Qed.

(** The comprehension of the branch without corpus. *)
Lemma comprehension_total {S A B} (g : A -> B) (l : list A) :
  computes (S := S) lib (comprehension (fun x => mret (g x)) l) (inr (map g l)).
Proof.
  induction l as [|x l IH]; intros s w; simpl; [done|].
  change (interp lib (mret (g x) ≫= (fun y =>
            comprehension (fun x => mret (g x)) l ≫= (fun ys => mret (y :: ys)))) s w
          = mkRan (inr (g x :: map g l)) s w []).
  rewrite interp_bind, interp_ret; simpl.
  by rewrite interp_bind, IH.
Qed.

End Semantics.

(** A run that makes no call is the same against every library. *)
Lemma interp_without_calls {World World'} (lib : Library World)
    (lib' : Library World') {S A} (p : Prog S A) (s : S) (w : World) (w' : World') :
  calls (interp lib p s w) = [] ->
  outcome (interp lib' p s w') = outcome (interp lib p s w).
Proof.
  revert s w w'; induction p as [a|e|k IH|s' k IH|X e k IH]; intros s w w'; simpl;
    try done; try apply IH.
  by destruct (lib X e w) as [[exc|x] w1].
Qed.

(** ** The document store *)

Import BM25S_DocumentStore.

(** C1. Whatever the documents and the duplicate policy, [write_documents]
    raises the generic [Exception] with the message "bm25s is immutable";
    whatever the ids, [delete_documents] raises the same; in both cases the
    store is left as it was and the library is not called. *)
Theorem write_delete_raise_immutable {World} (lib : Library World)
    (s : BM25S_DocumentStore.t) (w : World) :
  (forall (documents : list Document.t) (policy : DuplicatePolicy),
      interp lib (write_documents documents policy) s w
      = mkRan (inl (Exception "bm25s is immutable")) s w [])
  /\ (forall document_ids : list string,
      interp lib (delete_documents document_ids) s w
      = mkRan (inl (Exception "bm25s is immutable")) s w []).
Proof. split; intros; reflexivity. Qed.

(** C2. Whatever the filters, also without any, [filter_documents] raises
    [NotImplementedError]: it returns no list of documents, and the store
    is left as it was. *)
Theorem filter_documents_not_implemented {World} (lib : Library World)
    (s : BM25S_DocumentStore.t) (w : World)
    (filters : option (gmap string PyVal)) :
  interp lib (filter_documents filters) s w = mkRan (inl NotImplementedError) s w []
  /\ (forall docs, outcome (interp lib (filter_documents filters) s w) <> inr docs)
  /\ self_after (interp lib (filter_documents filters) s w) = s.
Proof. repeat split. intros docs; simpl; discriminate. Qed.

(** C3. On a store whose index holds ['num_docs'] in its [scores],
    [count_documents] returns exactly that value; it raises nothing, calls
    nothing and leaves the store as it was. *)
Theorem count_documents_reads_num_docs {World} (lib : Library World)
    (s : BM25S_DocumentStore.t) (w : World) (num_docs : PyVal) :
  scores (bm25s s) !! "num_docs" = Some num_docs ->
  interp lib count_documents s w = mkRan (inr num_docs) s w [].
Proof.
  intros Hn. unfold count_documents.
  rewrite interp_bind, interp_self; simpl.
  unfold getitem. by rewrite Hn.
Qed.

Lemma count_documents_reads_num_docs_witness :
  interp (Sample.lib Sample.corpus_rows) count_documents (Sample.store true) tt
  = mkRan (inr (PyInt 2)) (Sample.store true) tt [].
Proof.
  apply (count_documents_reads_num_docs (Sample.lib Sample.corpus_rows)
           (Sample.store true) tt (PyInt 2)).
  reflexivity.
Defined.

(** [count_documents] never calls the library nor assigns to the store,
    also when the field is missing. *)
Lemma count_documents_computes {World} (lib : Library World)
    (s : BM25S_DocumentStore.t) (w : World) :
  exists o, interp lib count_documents s w = mkRan o s w [].
Proof.
  unfold count_documents. rewrite interp_bind, interp_self; simpl.
  unfold getitem. destruct (scores (bm25s s) !! "num_docs"); by eexists.
Qed.

Lemma to_dict_computes {World} (lib : Library World)
    (s : BM25S_DocumentStore.t) (w : World) :
  interp lib to_dict s w
  = mkRan (inr (haystack.default_to_dict qualified_name
                  {[ "corpus_dirpath" := corpus_dirpath s;
                     "load_corpus" := load_corpus s;
                     "mmap" := mmap s;
                     "stemmer_lang" := stemmer_lang s ]})) s w [].
Proof. reflexivity. Qed.

(** Each operation leaves the store and the world as they were. *)
Lemma perform_unchanged {World} (lib : Library World) (c : StoreCall)
    (s : BM25S_DocumentStore.t) (w : World) :
  self_after (interp lib (perform c) s w) = s
  /\ world_after (interp lib (perform c) s w) = w
  /\ calls (interp lib (perform c) s w) = [].
Proof.
  destruct c; try (repeat split; reflexivity).
  unfold perform. rewrite interp_bind.
  destruct (count_documents_computes lib s w) as [o ->]; simpl.
  by destruct o.
Qed.

(** C7. The store is immutable after construction: any sequence of
    [count_documents], [filter_documents], [write_documents],
    [delete_documents] and [to_dict] leaves every field of the store, the
    wrapped index among them, and the library's world as they were, so
    [count_documents] gives the same before and after the sequence. *)
Theorem store_operations_preserve_store {World} (lib : Library World)
    (cs : list StoreCall) (s : BM25S_DocumentStore.t) (w : World) :
  perform_all lib cs s w = (s, w)
  /\ interp lib count_documents (perform_all lib cs s w).1 (perform_all lib cs s w).2
     = interp lib count_documents s w.
Proof.
  assert (H : perform_all lib cs s w = (s, w)).
  { induction cs as [|c cs IH]; simpl; [done|].
    destruct (perform_unchanged lib c s w) as (-> & -> & _). exact IH. }
  by rewrite H.
Qed.

(** The keyword call with the four parameters runs [__init__] on them. *)
Lemma new_four_parameters (corpus_dirpath load_corpus mmap stemmer_lang : PyVal) :
  new {[ "corpus_dirpath" := corpus_dirpath; "load_corpus" := load_corpus;
         "mmap" := mmap; "stemmer_lang" := stemmer_lang ]}
  = __init__ corpus_dirpath load_corpus mmap stemmer_lang.
Proof.
  unfold new. rewrite bool_decide_true.
  2:{ rewrite !dom_insert_L, dom_singleton_L. unfold parameters. set_solver. }
  repeat first [ rewrite lookup_insert_eq | rewrite lookup_singleton_eq
               | rewrite lookup_insert_ne by done ].
  done.
Qed.

(** What [__init__] does: it loads the index, builds the stemmer, and
    keeps its four arguments as they are. *)
Lemma interp_init {World} (lib : Library World)
    (corpus_dirpath load_corpus mmap stemmer_lang : PyVal) (w : World) :
  interp lib (__init__ corpus_dirpath load_corpus mmap stemmer_lang) tt w =
    let load := BM25_load corpus_dirpath load_corpus mmap in
    let make := Stemmer_Stemmer stemmer_lang in
    match lib _ load w with
    | (inl exc, w1) => mkRan (inl exc) tt w1 [Called load]
    | (inr index, w1) =>
        match lib _ make w1 with
        | (inl exc, w2) => mkRan (inl exc) tt w2 [Called load; Called make]
        | (inr stem, w2) =>
            mkRan (inr (mk corpus_dirpath load_corpus mmap stemmer_lang index stem))
              tt w2 [Called load; Called make]
        end
    end.
Proof.
  simpl. destruct (lib _ _ w) as [[exc|index] w1]; [done|]. simpl.
  by destruct (lib _ _ w1) as [[exc|stem] w2].
Qed.

(** C5. Round trip of the serialization: [to_dict] puts exactly the four
    constructor parameters of the store under ['init_parameters'], and
    [from_dict] on that dictionary runs the constructor on them; the store
    it constructs has the same [corpus_dirpath], [load_corpus], [mmap] and
    [stemmer_lang] as the original, and it is constructed whenever the
    library loads the index and builds the stemmer. *)
Theorem from_dict_to_dict_roundtrip {World} (lib : Library World)
    (s : BM25S_DocumentStore.t) (w w' : World) :
  exists data : gmap string PyVal,
    interp lib to_dict s w = mkRan (inr data) s w []
    /\ data !! "init_parameters"
       = Some (PyDict {[ "corpus_dirpath" := corpus_dirpath s;
                         "load_corpus" := load_corpus s;
                         "mmap" := mmap s;
                         "stemmer_lang" := stemmer_lang s ]})
    /\ interp lib (from_dict data) tt w'
       = interp lib (__init__ (corpus_dirpath s) (load_corpus s) (mmap s)
                       (stemmer_lang s)) tt w'
    /\ (forall s' : BM25S_DocumentStore.t,
          outcome (interp lib (from_dict data) tt w') = inr s' ->
          corpus_dirpath s' = corpus_dirpath s
          /\ load_corpus s' = load_corpus s
          /\ mmap s' = mmap s
          /\ stemmer_lang s' = stemmer_lang s)
    /\ (forall index w1 stem w2,
          lib _ (BM25_load (corpus_dirpath s) (load_corpus s) (mmap s)) w'
            = (inr index, w1) ->
          lib _ (Stemmer_Stemmer (stemmer_lang s)) w1 = (inr stem, w2) ->
          outcome (interp lib (from_dict data) tt w')
          = inr (mk (corpus_dirpath s) (load_corpus s) (mmap s) (stemmer_lang s)
                   index stem)).
Proof.
  eexists. split; [apply to_dict_computes|].
  assert (Hfrom : from_dict (haystack.default_to_dict qualified_name
                    {[ "corpus_dirpath" := corpus_dirpath s;
                       "load_corpus" := load_corpus s;
                       "mmap" := mmap s;
                       "stemmer_lang" := stemmer_lang s ]})
                  = __init__ (corpus_dirpath s) (load_corpus s) (mmap s)
                      (stemmer_lang s)).
  { unfold from_dict, haystack.default_from_dict, haystack.default_to_dict.
    rewrite lookup_insert_eq.
    rewrite (lookup_insert_ne _ "type" "init_parameters") by done.
    rewrite lookup_singleton_eq. cbn [default from_option].
    rewrite String.eqb_refl. apply new_four_parameters. }
  split.
  { unfold haystack.default_to_dict.
    rewrite (lookup_insert_ne _ "type" "init_parameters") by done.
    by rewrite lookup_singleton_eq. }
  rewrite Hfrom. split; [done|].
  rewrite interp_init. simpl.
  destruct (lib _ _ w') as [[exc|index] w1] eqn:Eload.
  { split; [by intros s' [=]|]. by intros ? ? ? ? [=]. }
  destruct (lib _ _ w1) as [[exc|stem] w2] eqn:Estem.
  { split; [by intros s' [=]|].
    intros ? ? ? ? [= <- <-] H. by rewrite Estem in H. }
  split.
  - by intros s' [= <-].
  - intros ? ? ? ? [= <- <-] H. rewrite Estem in H. by injection H as <- <-.
Qed.

(** C6. The fixture of the test calls the constructor without arguments;
    [corpus_dirpath] has no default, so the call is refused with the
    [TypeError] of a missing argument, before [__init__] loads anything. *)
Theorem docstore_fixture_missing_argument {World} (lib : Library World) (w : World) :
  interp lib TestDocumentStore.docstore tt w
  = mkRan (inl (TypeError (MissingArgument "corpus_dirpath"))) tt w []
  /\ (forall kwargs : gmap string PyVal,
        kwargs !! "corpus_dirpath" = None ->
        exists why, interp lib (new kwargs) tt w = mkRan (inl (TypeError why)) tt w []).
Proof.
  split.
  - unfold TestDocumentStore.docstore, new.
    rewrite bool_decide_true by (rewrite dom_empty_L; set_solver).
    by rewrite lookup_empty.
  - intros kwargs Hno. unfold new. case_bool_decide; [|by eexists].
    rewrite Hno. by eexists.
Qed.

(** ** The retriever *)

(** C8. [__init__] of the retriever checks nothing: for every integer
    [top_k], zero and the negative ones among them, construction returns a
    retriever, raises nothing (no [ValueError] either), and the retriever
    holds the given [top_k]. *)
Theorem retriever_init_keeps_top_k {World} (lib : Library World)
    (document_store : BM25S_DocumentStore.t) (top_k : Z) (w : World) :
  interp lib (BM25S_Retriever.__init__ document_store (PyInt top_k)) tt w
  = mkRan (inr (BM25S_Retriever.mk document_store (PyInt top_k))) tt w []
  /\ (forall r, outcome (interp lib (BM25S_Retriever.__init__ document_store
                                      (PyInt top_k)) tt w) = inr r ->
                BM25S_Retriever.top_k r = PyInt top_k).
Proof. split; [reflexivity|]. by intros r [= <-]. Qed.

Import BM25S_Retriever.

(** The comprehension of the branch with the corpus: it returns when every
    record has a ['text'], and raises otherwise. *)
Lemma comprehension_texts {World} (lib : Library World) {S} (row : list PyVal) :
  match mapM text_of row with
  | Some texts =>
      computes (S := S) lib
        (comprehension (fun doc => text ← subscript doc "text";
                                   mret (Document.mk None (Some text))) row)
        (inr (map (fun text => Document.mk None (Some text)) texts))
  | None =>
      exists e, computes (S := S) lib
        (comprehension (fun doc => text ← subscript doc "text";
                                   mret (Document.mk None (Some text))) row)
        (inl e)
  end.
Proof.
  induction row as [|doc row IH]; [by intros s w|].
  cbn [mapM comprehension].
  assert (Hdoc : match text_of doc with
                 | Some text => computes (S := S) lib (subscript doc "text") (inr text)
                 | None => exists e, computes (S := S) lib (subscript doc "text") (inl e)
                 end).
  { destruct doc as [| | | | |d]; simpl; try (by eexists; intros ? ?).
    unfold getitem. destruct (d !! "text"); [by intros ? ?|by eexists; intros ? ?]. }
  destruct (text_of doc) as [text|]; simpl.
  - destruct (mapM text_of row) as [texts|]; simpl.
    + eapply computes_bind.
      { eapply computes_bind; [exact Hdoc|]. simpl. by intros ? ?. }
      simpl. eapply computes_bind; [exact IH|]. simpl. by intros ? ?.
    + destruct IH as [e He]. exists e.
      eapply computes_bind.
      { eapply computes_bind; [exact Hdoc|]. simpl. by intros ? ?. }
      simpl. eapply computes_bind; [exact He|]. done.
  - destruct Hdoc as [e He]. exists e.
    eapply computes_bind; [|by instantiate (1 := inl e)].
    eapply computes_bind; [exact He|]. done.
Qed.

(** What [run] does, call by call. *)
Lemma interp_run {World} (lib : Library World) (r : BM25S_Retriever.t)
    (query : PyVal) (w : World) :
  interp lib (run query) r w =
    let ds := document_store r in
    let tokenize := bm25s_tokenize query (stemmer ds) in
    match lib _ tokenize w with
    | (inl exc, w1) => mkRan (inl exc) r w1 [Called tokenize]
    | (inr query_tokens, w1) =>
        let retrieve :=
          BM25_retrieve (bm25s ds) query_tokens (top_k r) "documents" in
        match lib _ retrieve w1 with
        | (inl exc, w2) => mkRan (inl exc) r w2 [Called tokenize; Called retrieve]
        | (inr rows, w2) =>
            let rest :=
              interp lib
                (if truthy (load_corpus ds) then
                   row ← first_row rows;
                   comprehension
                     (fun doc => text ← subscript doc "text";
                                 mret (Document.mk None (Some text))) row
                 else
                   row ← first_row rows;
                   comprehension (fun doc => mret (Document.mk (Some doc) None)) row)
                r w2 in
            mkRan (outcome rest) (self_after rest) (world_after rest)
              (Called tokenize :: Called retrieve :: calls rest)
        end
    end.
Proof.
  simpl. destruct (lib _ _ w) as [[exc|query_tokens] w1]; [done|]. simpl.
  by destruct (lib _ _ w1) as [[exc|rows] w2].
Qed.

(** After the two calls [run] only computes. *)
Lemma run_rest_computes {World} (lib : Library World) (load_corpus : PyVal)
    (rows : list (list PyVal)) :
  exists o,
    computes (S := BM25S_Retriever.t) lib
      (if truthy load_corpus then
         row ← first_row rows;
         comprehension
           (fun doc => text ← subscript doc "text";
                       mret (Document.mk None (Some text))) row
       else
         row ← first_row rows;
         comprehension (fun doc => mret (Document.mk (Some doc) None)) row) o
    /\ match rows with
       | [] => o = inl IndexError
       | row :: _ =>
           (forall docs, o = inr docs -> length docs = length row)
           /\ (if truthy load_corpus
               then match mapM text_of row with
                    | Some texts =>
                        o = inr (map (fun text => Document.mk None (Some text)) texts)
                    | None => exists e, o = inl e
                    end
               else o = inr (map (fun doc => Document.mk (Some doc) None) row))
       end.
Proof.
  destruct rows as [|row rest].
  { exists (inl IndexError). split; [|done].
    destruct (truthy load_corpus); by intros ? ?. }
  destruct (truthy load_corpus).
  - pose proof (comprehension_texts lib (S := BM25S_Retriever.t) row) as H.
    destruct (mapM text_of row) as [texts|] eqn:Htexts.
    + eexists. split; [|split; [|done]].
      * eapply computes_bind; [by intros ? ?|]. exact H.
      * intros docs [= <-]. rewrite length_map.
        symmetry. by eapply length_mapM.
    + destruct H as [e He]. exists (inl e). split; [|split; [done|by exists e]].
      eapply computes_bind; [by intros ? ?|]. exact He.
  - eexists. split; [|split; [|done]].
    + eapply computes_bind; [by intros ? ?|]. simpl. apply comprehension_total.
    + intros docs [= <-]. by rewrite length_map.
Qed.

(** C4. For every query string, [run] first calls the library's
    [tokenize] on the query with the stemmer of the document store, then
    calls [retrieve] on the wrapped index with the tokens it got, with
    [k] the [top_k] of the retriever; these are its only calls, an
    exception of either one is the exception of [run], and [run] assigns
    nothing to the retriever: nothing is tokenized, stemmed or scored
    here. *)
Theorem run_tokenizes_then_retrieves {World} (lib : Library World)
    (r : BM25S_Retriever.t) (query : string) (w : World) :
  let ds := document_store r in
  let tokenize := bm25s_tokenize (PyStr query) (stemmer ds) in
  let ran := interp lib (run (PyStr query)) r w in
  self_after ran = r
  /\ match lib _ tokenize w with
     | (inl exc, w1) =>
         calls ran = [Called tokenize]
         /\ outcome ran = inl exc
         /\ world_after ran = w1
     | (inr query_tokens, w1) =>
         let retrieve :=
           BM25_retrieve (bm25s ds) query_tokens (top_k r) "documents" in
         calls ran = [Called tokenize; Called retrieve]
         /\ world_after ran = (lib _ retrieve w1).2
         /\ (forall exc, (lib _ retrieve w1).1 = inl exc -> outcome ran = inl exc)
     end.
Proof.
  intros ds tokenize ran. subst ran tokenize ds. rewrite interp_run. cbv zeta.
  destruct (lib _ _ w) as [[exc|query_tokens] w1]; [by repeat split|].
  destruct (lib _ _ w1) as [[exc|rows] w2]; simpl.
  { repeat split. by intros ? [= <-]. }
  destruct (run_rest_computes lib (load_corpus (document_store r)) rows)
    as (o & Ho & _).
  rewrite Ho. simpl. repeat split. by intros ? [=].
Qed.

(** The arguments that [run] passes to [Document].  When [load_corpus]
    is true, it builds one [Document] for each record of the first row,
    from the ['text'] of the record only; when it is false, one for each
    value of the first row, with that value as the [id] argument and no
    content. *)
Lemma run_result_shape {World} (lib : Library World) (r : BM25S_Retriever.t)
    (query : PyVal) (w : World) (query_tokens : Tokens) (w1 : World)
    (row : list PyVal) (rest : list (list PyVal)) (w2 : World) :
  let ds := document_store r in
  lib _ (bm25s_tokenize query (stemmer ds)) w = (inr query_tokens, w1) ->
  lib _ (BM25_retrieve (bm25s ds) query_tokens (top_k r) "documents") w1
    = (inr (row :: rest), w2) ->
  let ran := interp lib (run query) r w in
  (truthy (load_corpus ds) = true ->
     forall texts, mapM text_of row = Some texts ->
       outcome ran = inr (map (fun text => Document.mk None (Some text)) texts))
  /\ (truthy (load_corpus ds) = false ->
       outcome ran = inr (map (fun doc => Document.mk (Some doc) None) row)).
Proof.
  intros ds Htok Hret ran. subst ran. rewrite interp_run.
  fold ds. cbv zeta. rewrite Htok, Hret.
  destruct (run_rest_computes lib (load_corpus ds) (row :: rest))
    as (o & Ho & _ & Hshape).
  cbn [outcome]. rewrite (Ho r w2). cbn [outcome].
  split; intros Hlc; rewrite Hlc in Hshape.
  - intros texts Htexts. by rewrite Htexts in Hshape.
  - done.
Qed.

Lemma run_result_shape_sample :
  outcome (interp (Sample.lib Sample.corpus_rows) (run (PyStr "cat"))
             (Sample.retriever true) tt)
  = inr [Document.mk None (Some (PyStr "a cat"));
         Document.mk None (Some (PyStr "a dog"))]
  /\ outcome (interp (Sample.lib Sample.id_rows) (run (PyStr "cat"))
                (Sample.retriever false) tt)
     = inr [Document.mk (Some (PyInt 1)) None; Document.mk (Some (PyInt 0)) None].
Proof.
  split.
  - apply (proj1 (run_result_shape (Sample.lib Sample.corpus_rows)
                    (Sample.retriever true) (PyStr "cat") tt
                    (PyList [PyStr "cat"]) tt
                    [Sample.record 1 "a cat"; Sample.record 0 "a dog"]
                    [[Sample.record 0 "a dog"]] tt eq_refl eq_refl)
             eq_refl [PyStr "a cat"; PyStr "a dog"]).
    vm_compute. reflexivity.
  - apply (proj2 (run_result_shape (Sample.lib Sample.id_rows)
                    (Sample.retriever false) (PyStr "cat") tt
                    (PyList [PyStr "cat"]) tt
                    [PyInt 1; PyInt 0] [] tt eq_refl eq_refl)
             eq_refl).
Defined.

(** C9. The id of a returned [Document] is not always the raw retrieved
    value.  With [load_corpus] false, [run] builds [Document(id=value)]
    for each value of the first row, with no content; for a value that is
    false as a truth value, as the position [0] is, the framework replaces
    the id, so the returned [Document] has an id created from its (absent)
    content and not the retrieved value. *)
Theorem run_falsy_id_replaced {World} (lib : Library World)
    (r : BM25S_Retriever.t) (query : PyVal) (w : World)
    (query_tokens : Tokens) (w1 : World)
    (row : list PyVal) (rest : list (list PyVal)) (w2 : World)
    (i : nat) (value : PyVal) :
  let ds := document_store r in
  lib _ (bm25s_tokenize query (stemmer ds)) w = (inr query_tokens, w1) ->
  lib _ (BM25_retrieve (bm25s ds) query_tokens (top_k r) "documents") w1
    = (inr (row :: rest), w2) ->
  truthy (load_corpus ds) = false ->
  row !! i = Some value ->
  truthy value = false ->
  exists docs doc,
    outcome (interp lib (run query) r w) = inr docs
    /\ docs !! i = Some doc
    /\ Document.id doc = Some value
    /\ Document.content doc = None
    /\ Document_id doc = CreatedId None
    /\ Document_id doc <> KeptId value.
Proof.
  intros ds Htok Hret Hlc Hi Hfalsy.
  pose proof (proj2 (run_result_shape lib r query w query_tokens w1 row rest w2
                       Htok Hret) Hlc) as Hrun.
  exists (map (fun doc => Document.mk (Some doc) None) row),
         (Document.mk (Some value) None).
  split; [exact Hrun|]. split.
  { change (map (fun doc => Document.mk (Some doc) None) row)
      with ((fun doc => Document.mk (Some doc) None) <$> row).
    by rewrite list_lookup_fmap, Hi. }
  unfold Document_id. cbn [Document.id Document.content]. rewrite Hfalsy.
  by repeat split.
Qed.

Lemma run_falsy_id_replaced_witness :
  exists docs doc,
    outcome (interp (Sample.lib Sample.id_rows) (run (PyStr "cat"))
               (Sample.retriever false) tt) = inr docs
    /\ docs !! 1%nat = Some doc
    /\ Document.id doc = Some (PyInt 0)
    /\ Document.content doc = None
    /\ Document_id doc = CreatedId None
    /\ Document_id doc <> KeptId (PyInt 0).
Proof.
  apply (run_falsy_id_replaced (Sample.lib Sample.id_rows) (Sample.retriever false)
           (PyStr "cat") tt (PyList [PyStr "cat"]) tt [PyInt 1; PyInt 0] [] tt
           1%nat (PyInt 0));
    reflexivity.
Defined.

(** C10. [run] returns from the first row of what [retrieve] returned,
    and from nothing else: the list it returns has exactly one [Document]
    for each entry of that row, hence at most [top_k] of them when the row
    has at most [top_k] entries, and it is the same whatever the other rows
    are. *)
Theorem run_first_row_only {World} (lib lib' : Library World)
    (r : BM25S_Retriever.t) (query : PyVal) (w : World)
    (query_tokens query_tokens' : Tokens) (w1 w1' : World)
    (row : list PyVal) (rest rest' : list (list PyVal)) (w2 w2' : World) :
  let ds := document_store r in
  lib _ (bm25s_tokenize query (stemmer ds)) w = (inr query_tokens, w1) ->
  lib _ (BM25_retrieve (bm25s ds) query_tokens (top_k r) "documents") w1
    = (inr (row :: rest), w2) ->
  lib' _ (bm25s_tokenize query (stemmer ds)) w = (inr query_tokens', w1') ->
  lib' _ (BM25_retrieve (bm25s ds) query_tokens' (top_k r) "documents") w1'
    = (inr (row :: rest'), w2') ->
  let ran := interp lib (run query) r w in
  outcome (interp lib' (run query) r w) = outcome ran
  /\ (forall docs, outcome ran = inr docs ->
        length docs = length row
        /\ forall k : Z, top_k r = PyInt k ->
             (Z.of_nat (length row) <= k)%Z -> (Z.of_nat (length docs) <= k)%Z)
  /\ (truthy (load_corpus ds) = false \/ is_Some (mapM text_of row) ->
        exists docs, outcome ran = inr docs).
Proof.
  intros ds Htok Hret Htok' Hret' ran. subst ran. rewrite !interp_run.
  fold ds. cbv zeta. rewrite Htok, Hret, Htok', Hret'.
  destruct (run_rest_computes lib (load_corpus ds) (row :: rest))
    as (o & Ho & Hlen & Hshape).
  destruct (run_rest_computes lib' (load_corpus ds) (row :: rest'))
    as (o' & Ho' & _ & Hshape').
  cbn [outcome]. rewrite (Ho r w2), (Ho' r w2'). cbn [outcome].
  assert (o' = o) as ->.
  { specialize (Ho r w2). specialize (Ho' r w2').
    pose proof (f_equal calls Ho) as Hcalls.
    apply (f_equal outcome) in Ho, Ho'.
    destruct (truthy (load_corpus ds)); simpl in Ho, Ho', Hcalls;
      rewrite <- Ho, <- Ho'; by apply interp_without_calls. }
  split; [done|]. split.
  - intros docs ->. split; [by apply Hlen|].
    intros k _ Hk. by rewrite Hlen.
  - intros [Hlc|[texts Htexts]].
    + rewrite Hlc in Hshape. by eexists.
    + destruct (truthy (load_corpus ds)); [|by eexists].
      rewrite Htexts in Hshape. by eexists.
Qed.

Lemma run_first_row_only_witness :
  outcome (interp (Sample.lib (take 1 Sample.corpus_rows)) (run (PyStr "cat"))
             (Sample.retriever true) tt)
  = outcome (interp (Sample.lib Sample.corpus_rows) (run (PyStr "cat"))
               (Sample.retriever true) tt)
  /\ forall docs,
       outcome (interp (Sample.lib Sample.corpus_rows) (run (PyStr "cat"))
                  (Sample.retriever true) tt) = inr docs ->
       length docs = 2
       /\ forall k : Z, PyInt 2 = PyInt k -> (2 <= k)%Z -> (Z.of_nat (length docs) <= k)%Z.
Proof.
  pose proof (run_first_row_only
                (Sample.lib Sample.corpus_rows)
                (Sample.lib (take 1 Sample.corpus_rows))
                (Sample.retriever true) (PyStr "cat") tt
                (PyList [PyStr "cat"]) (PyList [PyStr "cat"]) tt tt
                [Sample.record 1 "a cat"; Sample.record 0 "a dog"]
                [[Sample.record 0 "a dog"]] [] tt tt
                eq_refl eq_refl eq_refl eq_refl) as (Hsame & Hlen & _).
  split; [exact Hsame|exact Hlen].
Defined.

(** * Further properties of the document store *)

(** X1. Construction returns a store exactly when the library loads the
    index and then builds the stemmer; when the load raises, construction
    raises the same exception and the stemmer is never asked for. *)
Theorem init_returns_iff_library_returns {World} (lib : Library World)
    (corpus_dirpath load_corpus mmap stemmer_lang : PyVal) (w : World) :
  let load := BM25_load corpus_dirpath load_corpus mmap in
  let ran :=
    interp lib (BM25S_DocumentStore.__init__ corpus_dirpath load_corpus mmap
                  stemmer_lang) tt w in
  ((exists s, outcome ran = inr s) <->
   (exists index w1 stem w2,
      lib _ load w = (inr index, w1)
      /\ lib _ (Stemmer_Stemmer stemmer_lang) w1 = (inr stem, w2)))
  /\ (forall exc w1,
        lib _ load w = (inl exc, w1) ->
        ran = mkRan (inl exc) tt w1 [Called load])
  /\ (forall index w1 exc w2,
        lib _ load w = (inr index, w1) ->
        lib _ (Stemmer_Stemmer stemmer_lang) w1 = (inl exc, w2) ->
        ran = mkRan (inl exc) tt w2 [Called load; Called (Stemmer_Stemmer stemmer_lang)]).
Proof.
  intros load ran. subst ran load. rewrite interp_init. cbv zeta.
  destruct (lib _ _ w) as [[exc|index] w1] eqn:Eload.
  { repeat split.
    - by intros [s [=]].
    - by intros (? & ? & ? & ? & [=] & _).
    - by intros ? ? [= <- <-].
    - by intros ? ? ? ? [=]. }
  destruct (lib _ _ w1) as [[exc|stem] w2] eqn:Estem.
  - repeat split.
    + by intros [s [=]].
    + intros (? & ? & ? & ? & [= <- <-] & H). by rewrite Estem in H.
    + by intros ? ? [=].
    + intros ? ? ? ? [= <- <-] H. rewrite Estem in H. by injection H as <- <-.
  - repeat split.
    + intros _. by exists index, w1, stem, w2.
    + intros _. by eexists.
    + by intros ? ? [=].
    + intros ? ? ? ? [= <- <-] H. by rewrite Estem in H.
Qed.

(** The keyword call on keywords that fit the signature. *)
Lemma new_fitting (kwargs : gmap string PyVal) (corpus_dirpath : PyVal) :
  dom kwargs ⊆ parameters ->
  kwargs !! "corpus_dirpath" = Some corpus_dirpath ->
  new kwargs
  = BM25S_DocumentStore.__init__ corpus_dirpath
      (default (PyBool true) (kwargs !! "load_corpus"))
      (default (PyBool true) (kwargs !! "mmap"))
      (default (PyStr "english") (kwargs !! "stemmer_lang")).
Proof. intros Hdom Hcd. unfold new. by rewrite bool_decide_true, Hcd. Qed.

(** A store comes out of the keyword call only when the keywords fit. *)
Lemma new_returns_inv {World} (lib : Library World)
    (kwargs : gmap string PyVal) (w : World) (s : BM25S_DocumentStore.t) :
  outcome (interp lib (new kwargs) tt w) = inr s ->
  dom kwargs ⊆ parameters
  /\ exists index stem,
       s = BM25S_DocumentStore.mk
             (default PyNone (kwargs !! "corpus_dirpath"))
             (default (PyBool true) (kwargs !! "load_corpus"))
             (default (PyBool true) (kwargs !! "mmap"))
             (default (PyStr "english") (kwargs !! "stemmer_lang"))
             index stem
       /\ is_Some (kwargs !! "corpus_dirpath")
       /\ exists w1 w2,
            lib _ (BM25_load (default PyNone (kwargs !! "corpus_dirpath"))
                     (default (PyBool true) (kwargs !! "load_corpus"))
                     (default (PyBool true) (kwargs !! "mmap"))) w
            = (inr index, w1)
            /\ lib _ (Stemmer_Stemmer
                        (default (PyStr "english") (kwargs !! "stemmer_lang"))) w1
               = (inr stem, w2).
Proof.
  unfold new. case_bool_decide as Hdom; [|by intros [=]].
  destruct (kwargs !! "corpus_dirpath") as [cd|] eqn:Hcd; [|by intros [=]].
  rewrite interp_init. cbv zeta.
  destruct (lib _ _ w) as [[exc|index] w1] eqn:Eload; [by intros [=]|].
  destruct (lib _ _ w1) as [[exc|stem] w2] eqn:Estem; [by intros [=]|].
  intros [= <-]. split; [done|]. exists index, stem. simpl.
  repeat split; [by eexists|]. by exists w1, w2.
Qed.

(** X2. Constructed from [corpus_dirpath] alone, a store loads the index
    with [load_corpus=True] and [mmap=True], builds the stemmer for
    ["english"], and holds these defaults in its fields. *)
Theorem new_takes_defaults {World} (lib : Library World) (dirpath : PyVal)
    (w : World) (s : BM25S_DocumentStore.t) :
  let ran := interp lib (new {[ "corpus_dirpath" := dirpath ]}) tt w in
  outcome ran = inr s ->
  corpus_dirpath s = dirpath
  /\ load_corpus s = PyBool true
  /\ mmap s = PyBool true
  /\ stemmer_lang s = PyStr "english"
  /\ calls ran = [Called (BM25_load dirpath (PyBool true) (PyBool true));
                  Called (Stemmer_Stemmer (PyStr "english"))].
Proof.
  intros ran. subst ran.
  rewrite (new_fitting _ dirpath).
  2:{ rewrite dom_singleton_L. unfold parameters. set_solver. }
  2:{ apply lookup_singleton_eq. }
  rewrite !lookup_singleton_ne by done. cbn [default from_option].
  rewrite interp_init. cbv zeta.
  destruct (lib _ _ w) as [[exc|index] w1]; [by intros [=]|].
  destruct (lib _ _ w1) as [[exc|stem] w2]; [by intros [=]|].
  by intros [= <-].
Qed.

Lemma new_takes_defaults_witness :
  load_corpus (Sample.store true) = PyBool true
  /\ stemmer_lang (Sample.store true) = PyStr "english".
Proof.
  destruct (new_takes_defaults (Sample.lib Sample.corpus_rows) (PyStr "idx") tt
              (Sample.store true) eq_refl) as (_ & Hlc & _ & Hlang & _).
  split; [exact Hlc|exact Hlang].
Defined.

(** X3. A keyword that is no parameter of [__init__] makes the constructor
    call fail with [TypeError] before anything is loaded. *)
Theorem new_rejects_unknown_keyword {World} (lib : Library World)
    (kwargs : gmap string PyVal) (keyword : string) (w : World) :
  is_Some (kwargs !! keyword) ->
  keyword ∉ parameters ->
  interp lib (new kwargs) tt w = mkRan (inl (TypeError UnexpectedKeyword)) tt w [].
Proof.
  intros Hin Hno. unfold new. rewrite bool_decide_false; [done|].
  intros Hsub. apply Hno, Hsub. by apply elem_of_dom.
Qed.

Lemma new_rejects_unknown_keyword_witness :
  interp (Sample.lib Sample.corpus_rows)
    (new {[ "corpus_dirpath" := PyStr "idx"; "top_k" := PyInt 3 ]}) tt tt
  = mkRan (inl (TypeError UnexpectedKeyword)) tt tt [].
Proof.
  apply (new_rejects_unknown_keyword _ _ "top_k").
  - exists (PyInt 3). vm_compute. reflexivity.
  - apply (bool_decide_unpack _). vm_compute. exact I.
Defined.

(** X4. On a store whose index has no ['num_docs'] in its [scores],
    [count_documents] raises [KeyError] for that key; the store is left
    as it was and the library is not called. *)
Theorem count_documents_missing_key {World} (lib : Library World)
    (s : BM25S_DocumentStore.t) (w : World) :
  scores (bm25s s) !! "num_docs" = None ->
  interp lib count_documents s w = mkRan (inl (KeyError "num_docs")) s w [].
Proof.
  intros Hn. unfold count_documents.
  rewrite interp_bind, interp_self; simpl.
  unfold getitem. by rewrite Hn.
Qed.

Lemma count_documents_missing_key_witness :
  interp (Sample.lib Sample.corpus_rows) count_documents Edge.store_uncounted tt
  = mkRan (inl (KeyError "num_docs")) Edge.store_uncounted tt [].
Proof.
  apply (count_documents_missing_key (Sample.lib Sample.corpus_rows)
           Edge.store_uncounted tt).
  reflexivity.
Defined.

(** X5. A store that the constructor returned counts what the loaded
    index holds: [count_documents] on it returns the ['num_docs'] of the
    index that the library's [load] returned for its directory. *)
Theorem constructed_store_counts_loaded_index {World} (lib : Library World)
    (kwargs : gmap string PyVal) (dirpath : PyVal) (index : BM25)
    (num_docs : PyVal) (w w1 w' : World) (s : BM25S_DocumentStore.t) :
  kwargs !! "corpus_dirpath" = Some dirpath ->
  lib _ (BM25_load dirpath
           (default (PyBool true) (kwargs !! "load_corpus"))
           (default (PyBool true) (kwargs !! "mmap"))) w = (inr index, w1) ->
  scores index !! "num_docs" = Some num_docs ->
  outcome (interp lib (new kwargs) tt w) = inr s ->
  interp lib count_documents s w' = mkRan (inr num_docs) s w' [].
Proof.
  intros Hcd Hload Hn Hs.
  apply new_returns_inv in Hs as (_ & index' & stem & -> & _ & w1' & w2' & Hload' & _).
  rewrite Hcd in Hload'. simpl in Hload'.
  rewrite Hload in Hload'. injection Hload' as <- _.
  unfold count_documents. rewrite interp_bind, interp_self; simpl.
  unfold getitem. by rewrite Hn.
Qed.

Lemma constructed_store_counts_loaded_index_witness :
  interp (Sample.lib Sample.corpus_rows) count_documents (Sample.store true) tt
  = mkRan (inr (PyInt 2)) (Sample.store true) tt [].
Proof.
  apply (constructed_store_counts_loaded_index (Sample.lib Sample.corpus_rows)
           {[ "corpus_dirpath" := PyStr "idx" ]} (PyStr "idx") Sample.index
           (PyInt 2) tt tt tt (Sample.store true));
    vm_compute; reflexivity.
Defined.

(** What [to_dict] puts under each key of ['init_parameters']. *)
Lemma init_parameters_lookup (s : BM25S_DocumentStore.t) :
  let kw : gmap string PyVal :=
    {[ "corpus_dirpath" := corpus_dirpath s; "load_corpus" := load_corpus s;
       "mmap" := mmap s; "stemmer_lang" := stemmer_lang s ]} in
  kw !! "corpus_dirpath" = Some (corpus_dirpath s)
  /\ kw !! "load_corpus" = Some (load_corpus s)
  /\ kw !! "mmap" = Some (mmap s)
  /\ kw !! "stemmer_lang" = Some (stemmer_lang s).
Proof.
  cbv zeta. repeat split;
    repeat first [ rewrite lookup_insert_eq | rewrite lookup_singleton_eq
                 | rewrite lookup_insert_ne by done ]; done.
Qed.

(** X6. What [to_dict] returns depends on the four configuration fields
    of the store and on nothing else, and it tells them apart: two stores
    serialize to the same dictionary exactly when they have the same
    [corpus_dirpath], [load_corpus], [mmap] and [stemmer_lang], whatever
    their indexes and stemmers are. *)
Theorem to_dict_determines_configuration {World World'} (lib : Library World)
    (lib' : Library World') (s s' : BM25S_DocumentStore.t) (w : World) (w' : World') :
  outcome (interp lib to_dict s w) = outcome (interp lib' to_dict s' w')
  <-> corpus_dirpath s = corpus_dirpath s'
      /\ load_corpus s = load_corpus s'
      /\ mmap s = mmap s'
      /\ stemmer_lang s = stemmer_lang s'.
Proof.
  rewrite !to_dict_computes. cbn [outcome]. split.
  - intros Heq.
    assert (Hkw : ({[ "corpus_dirpath" := corpus_dirpath s;
                      "load_corpus" := load_corpus s;
                      "mmap" := mmap s;
                      "stemmer_lang" := stemmer_lang s ]} : gmap string PyVal)
                  = {[ "corpus_dirpath" := corpus_dirpath s';
                       "load_corpus" := load_corpus s';
                       "mmap" := mmap s';
                       "stemmer_lang" := stemmer_lang s' ]}).
    { apply (f_equal (fun o : PyExc + gmap string PyVal =>
                        match o with
                        | inr m => m !! "init_parameters"
                        | inl _ => None
                        end)) in Heq.
      cbv beta iota in Heq. unfold haystack.default_to_dict in Heq.
      rewrite !(lookup_insert_ne _ "type" "init_parameters") in Heq by done.
      rewrite !lookup_singleton_eq in Heq. congruence. }
    destruct (init_parameters_lookup s) as (H1 & H2 & H3 & H4).
    destruct (init_parameters_lookup s') as (H1' & H2' & H3' & H4').
    cbv zeta in *. rewrite Hkw in H1, H2, H3, H4.
    repeat split; congruence.
  - intros (-> & -> & -> & ->). done.
Qed.

(** [from_dict] on a dictionary that [default_to_dict] wrote for this
    class is the keyword call on its parameters. *)
Lemma from_dict_default_to_dict (kwargs : gmap string PyVal) :
  from_dict (haystack.default_to_dict qualified_name kwargs) = new kwargs.
Proof.
  unfold from_dict, haystack.default_from_dict, haystack.default_to_dict.
  rewrite lookup_insert_eq.
  rewrite (lookup_insert_ne _ "type" "init_parameters") by done.
  rewrite lookup_singleton_eq. cbn [default from_option].
  by rewrite String.eqb_refl.
Qed.

(** X7. Deserializing and serializing again completes the parameters:
    when [from_dict] returns a store for a dictionary written for this
    class, [to_dict] on that store returns the same parameters, with
    [load_corpus=True], [mmap=True] and [stemmer_lang="english"] for those
    that were left out. *)
Theorem to_dict_from_dict_completes {World} (lib : Library World)
    (kwargs : gmap string PyVal) (w w' : World) (s : BM25S_DocumentStore.t) :
  outcome (interp lib (from_dict (haystack.default_to_dict qualified_name kwargs))
             tt w) = inr s ->
  interp lib to_dict s w'
  = mkRan (inr (haystack.default_to_dict qualified_name
                  (kwargs ∪ {[ "load_corpus" := PyBool true;
                               "mmap" := PyBool true;
                               "stemmer_lang" := PyStr "english" ]}))) s w' [].
Proof.
  rewrite from_dict_default_to_dict. intros Hs.
  apply new_returns_inv in Hs as (Hdom & index & stem & -> & [dirpath Hcd] & _).
  rewrite to_dict_computes. cbn [corpus_dirpath load_corpus mmap stemmer_lang].
  do 3 f_equal. apply map_eq. intros key.
  rewrite lookup_union.
  destruct (decide (key = "corpus_dirpath")) as [->|Hk1].
  { rewrite lookup_insert_eq, Hcd. simpl.
    by repeat first [ rewrite lookup_insert_ne by done
                    | rewrite lookup_singleton_ne by done ]. }
  rewrite (lookup_insert_ne _ "corpus_dirpath" key) by done.
  destruct (decide (key = "load_corpus")) as [->|Hk2].
  { rewrite !lookup_insert_eq. by destruct (kwargs !! "load_corpus"). }
  rewrite !(lookup_insert_ne _ "load_corpus" key) by done.
  destruct (decide (key = "mmap")) as [->|Hk3].
  { rewrite !lookup_insert_eq. by destruct (kwargs !! "mmap"). }
  rewrite !(lookup_insert_ne _ "mmap" key) by done.
  destruct (decide (key = "stemmer_lang")) as [->|Hk4].
  { rewrite !lookup_singleton_eq. by destruct (kwargs !! "stemmer_lang"). }
  rewrite !lookup_singleton_ne by done.
  assert (kwargs !! key = None) as ->; [|done].
  apply not_elem_of_dom. intros Hin. apply Hdom in Hin.
  unfold parameters in Hin.
  rewrite !elem_of_union, !elem_of_singleton in Hin.
  destruct Hin as [[[Hin|Hin]|Hin]|Hin]; congruence.
Qed.

Lemma to_dict_from_dict_completes_witness :
  interp (Sample.lib Sample.corpus_rows) to_dict (Sample.store true) tt
  = mkRan (inr (haystack.default_to_dict qualified_name
                  ({[ "corpus_dirpath" := PyStr "idx" ]}
                   ∪ {[ "load_corpus" := PyBool true;
                        "mmap" := PyBool true;
                        "stemmer_lang" := PyStr "english" ]})))
      (Sample.store true) tt [].
Proof.
  apply (to_dict_from_dict_completes (Sample.lib Sample.corpus_rows)
           {[ "corpus_dirpath" := PyStr "idx" ]} tt tt (Sample.store true)).
  vm_compute. reflexivity.
Defined.

(** * Further properties of the retriever *)

(** X8. When the library's [retrieve] returns no row at all, [run] raises
    [IndexError], whatever [load_corpus] is: it does not return an empty
    list. *)
Theorem run_no_rows_index_error {World} (lib : Library World)
    (r : BM25S_Retriever.t) (query : PyVal) (w : World)
    (query_tokens : Tokens) (w1 w2 : World) :
  let ds := document_store r in
  let tokenize := bm25s_tokenize query (stemmer ds) in
  let retrieve := BM25_retrieve (bm25s ds) query_tokens (top_k r) "documents" in
  lib _ tokenize w = (inr query_tokens, w1) ->
  lib _ retrieve w1 = (inr [], w2) ->
  interp lib (run query) r w
  = mkRan (inl IndexError) r w2 [Called tokenize; Called retrieve].
Proof.
  intros ds tokenize retrieve Htok Hret. subst tokenize retrieve ds.
  rewrite interp_run. cbv zeta. rewrite Htok, Hret.
  by destruct (truthy (load_corpus (document_store r))).
Qed.

Lemma run_no_rows_index_error_witness :
  outcome (interp (Sample.lib []) (run (PyStr "cat")) (Sample.retriever false) tt)
  = inl IndexError.
Proof.
  apply (f_equal outcome
           (run_no_rows_index_error (Sample.lib []) (Sample.retriever false)
              (PyStr "cat") tt (PyList [PyStr "cat"]) tt tt eq_refl eq_refl)).
Defined.

(** A row of dictionaries one of which has no ['text']: the comprehension
    raises [KeyError] for that key. *)
Lemma comprehension_key_error {World} (lib : Library World) {S} (row : list PyVal) :
  Forall (fun doc => exists d, doc = PyDict d) row ->
  Exists (fun doc => text_of doc = None) row ->
  computes (S := S) lib
    (comprehension (fun doc => text ← subscript doc "text";
                               mret (Document.mk None (Some text))) row)
    (inl (KeyError "text")).
Proof.
  induction row as [|doc row IH]; intros Hdicts Hmissing.
  { by apply Exists_nil in Hmissing. }
  apply Forall_cons in Hdicts as [[d ->] Hdicts].
  cbn [comprehension].
  destruct (d !! "text") as [text|] eqn:Htext.
  - apply Exists_cons in Hmissing as [Hhere|Hlater].
    { simpl in Hhere. congruence. }
    eapply (computes_bind lib _ _ (inr (Document.mk None (Some text)))).
    { eapply (computes_bind lib _ _ (inr text)).
      - intros ? ?. simpl. unfold getitem. by rewrite Htext.
      - by intros ? ?. }
    simpl. eapply computes_bind; [by apply IH|]. done.
  - eapply (computes_bind lib _ _ (inl (KeyError "text"))); [|done].
    eapply (computes_bind lib _ _ (inl (KeyError "text"))); [|done].
    intros ? ?. simpl. unfold getitem. by rewrite Htext.
Qed.

(** X9. With [load_corpus] true, one retrieved record of the first row
    without a ['text'] is enough for [run] to fail: when the records are
    dictionaries and one of them lacks the key, [run] raises [KeyError]
    for ['text'] and returns no document, not even for the records that
    have one. *)
Theorem run_record_without_text {World} (lib : Library World)
    (r : BM25S_Retriever.t) (query : PyVal) (w : World)
    (query_tokens : Tokens) (w1 : World)
    (row : list PyVal) (rest : list (list PyVal)) (w2 : World) :
  let ds := document_store r in
  lib _ (bm25s_tokenize query (stemmer ds)) w = (inr query_tokens, w1) ->
  lib _ (BM25_retrieve (bm25s ds) query_tokens (top_k r) "documents") w1
    = (inr (row :: rest), w2) ->
  truthy (load_corpus ds) = true ->
  Forall (fun doc => exists d, doc = PyDict d) row ->
  Exists (fun doc => text_of doc = None) row ->
  outcome (interp lib (run query) r w) = inl (KeyError "text").
Proof.
  intros ds Htok Hret Hlc Hdicts Hmissing. subst ds.
  rewrite interp_run. cbv zeta. rewrite Htok, Hret, Hlc. cbn [outcome].
  pose proof (comprehension_key_error lib (S := BM25S_Retriever.t) row
                Hdicts Hmissing) as H.
  specialize (H r w2). simpl. by rewrite H.
Qed.

Lemma run_record_without_text_witness :
  outcome (interp (Sample.lib Edge.untexted_rows) (run (PyStr "cat"))
             (Sample.retriever true) tt)
  = inl (KeyError "text").
Proof.
  apply (run_record_without_text (Sample.lib Edge.untexted_rows)
           (Sample.retriever true) (PyStr "cat") tt (PyList [PyStr "cat"]) tt
           [Sample.record 1 "a cat"; PyDict {[ "id" := PyInt 0 ]}] [] tt
           eq_refl eq_refl eq_refl).
  - repeat constructor; eexists; reflexivity.
  - apply Exists_cons_tl, Exists_cons_hd. vm_compute. reflexivity.
Defined.

(** X10. From construction to query: a retriever set on a constructed
    store tokenizes with the stemmer that the library built at
    construction and retrieves from the index that the library loaded
    then, with the [top_k] it was given, whatever that value is; [run]
    loads nothing again. *)
Theorem run_uses_what_construction_obtained {World} (lib : Library World)
    (kwargs : gmap string PyVal) (top_k query : PyVal) (w w' : World)
    (s : BM25S_DocumentStore.t) (r : BM25S_Retriever.t) :
  outcome (interp lib (new kwargs) tt w) = inr s ->
  outcome (interp lib (BM25S_Retriever.__init__ s top_k) tt w') = inr r ->
  exists dirpath index stem w1 w2,
    kwargs !! "corpus_dirpath" = Some dirpath
    /\ lib _ (BM25_load dirpath
                (default (PyBool true) (kwargs !! "load_corpus"))
                (default (PyBool true) (kwargs !! "mmap"))) w = (inr index, w1)
    /\ lib _ (Stemmer_Stemmer
                (default (PyStr "english") (kwargs !! "stemmer_lang"))) w1
       = (inr stem, w2)
    /\ forall (w0 : World) query_tokens w3,
         lib _ (bm25s_tokenize query stem) w0 = (inr query_tokens, w3) ->
         calls (interp lib (run query) r w0)
         = [Called (bm25s_tokenize query stem);
            Called (BM25_retrieve index query_tokens top_k "documents")].
Proof.
  intros Hs Hr.
  apply new_returns_inv in Hs
    as (_ & index & stem & -> & [dirpath Hcd] & w1 & w2 & Hload & Hstem).
  rewrite Hcd in Hload. simpl in Hload.
  injection Hr as <-.
  exists dirpath, index, stem, w1, w2. repeat split; [done..|].
  intros w0 query_tokens w3 Htok.
  rewrite interp_run. cbv zeta.
  cbn [document_store BM25S_Retriever.top_k stemmer bm25s load_corpus].
  rewrite Htok.
  destruct (lib _ _ w3) as [[exc|rows] w4]; [done|].
  destruct (run_rest_computes lib
              (default (PyBool true) (kwargs !! "load_corpus")) rows)
    as (o & Ho & _).
  cbn [calls]. by rewrite (Ho _ w4).
Qed.

Lemma run_uses_what_construction_obtained_witness :
  calls (interp (Sample.lib Sample.id_rows) (run (PyStr "cat"))
           (BM25S_Retriever.mk (Sample.store true) (PyInt 0)) tt)
  = [Called (bm25s_tokenize (PyStr "cat") (mkStemmer 1));
     Called (BM25_retrieve Sample.index (PyList [PyStr "cat"]) (PyInt 0)
               "documents")].
Proof.
  assert (Hs : outcome (interp (Sample.lib Sample.id_rows)
                          (new {[ "corpus_dirpath" := PyStr "idx" ]}) tt tt)
               = inr (Sample.store true)) by (vm_compute; reflexivity).
  destruct (run_uses_what_construction_obtained (Sample.lib Sample.id_rows)
              {[ "corpus_dirpath" := PyStr "idx" ]} (PyInt 0) (PyStr "cat") tt tt
              (Sample.store true)
              (BM25S_Retriever.mk (Sample.store true) (PyInt 0))
              Hs eq_refl)
    as (dirpath & index & stem & w1 & w2 & _ & Hload & Hstem & Hrun).
  injection Hload as <- _. injection Hstem as <- _.
  exact (Hrun tt (PyList [PyStr "cat"]) tt eq_refl).
Defined.
